(** * Memoize.MemoizeHandler: the rewrite planner of the memoize tool

    A shallow embedding of [src/memoize/handler.hpp].  The handler is a
    clang [MatchCallback]: for one matched function definition it submits
    three text edits to a [clang::Rewriter].  The clang classes the handler
    talks to ([FunctionDecl], [SourceManager], [Rewriter]) are modelled by
    the observations the handler makes of them. *)

From Stdlib Require Import String Ascii ZArith List Lia Bool Arith.
Import ListNotations.

#[local] Open Scope string_scope.
#[local] Open Scope Z_scope.

(** ** Machine integers

    [std::string::length] is a [size_t]; [SourceLocation::getLocWithOffset]
    takes an [int].  Both conversions are written out. *)

Module Int.

Definition size_t_wrap (z : Z) : Z := z mod 2 ^ 64.

Definition to_int (z : Z) : Z := (z + 2 ^ 31) mod 2 ^ 32 - 2 ^ 31.

End Int.

(** The line feed of the C++ string literals. *)
Definition LF : string := String "010" "".

(** [s.length()] *)
Definition str_length (s : string) : Z := Z.of_nat (String.length s).

(** ** The clang AST and source manager, as the handler observes them *)

(** A [clang::SourceLocation] of the main file, as its offset in the
    file's buffer.  Offsets are not bounded here: clang asserts that a
    location moved by [getLocWithOffset] stays in the address space. *)
Definition SourceLocation : Type := Z.

Definition getLocWithOffset (Loc : SourceLocation) (Offset : Z) : SourceLocation :=
  Loc + Offset.

Record SourceRange : Type := mkSourceRange {
  getBegin : SourceLocation;
  getEnd : SourceLocation
}.

(** [clang::ParmVarDecl]: the handler reads [getNameAsString] only;
    [parmTypeText] is the type as the source file spells it. *)
Record ParmVarDecl : Type := mkParm {
  parmTypeText : string;
  parmName : string
}.

(** The body of a definition, [Function.getBody()]: its [getLocStart] is
    the location of the opening brace. *)
Record Stmt : Type := mkStmt {
  stmt_getLocStart : SourceLocation
}.

Record FunctionDecl : Type := mkFunctionDecl {
  getNameAsString : string;
  (** [getReturnType().getAsString()] *)
  getReturnType : string;
  parameters : list ParmVarDecl;
  (** location of the name *)
  getLocation : SourceLocation;
  (** location where the declaration starts *)
  getLocStart : SourceLocation;
  (** location of the closing brace of the definition *)
  getLocEnd : SourceLocation;
  (** a null pointer for a declaration without a body *)
  getBody : option Stmt
}.

Definition getNumParams (Function : FunctionDecl) : nat :=
  List.length (parameters Function).

(** [clang::SourceManager]: the buffer of the main file.  A [const char*]
    into the buffer is its offset. *)
Record SourceManagerT : Type := mkSourceManager {
  fileBuffer : string
}.

Definition getCharacterData (SM : SourceManagerT) (Loc : SourceLocation) : Z := Loc.

(** [std::string(first, last)] over the buffer: the characters of
    [first, last).  A range that is inverted or leaves the buffer is
    undefined behaviour in the source; the model has no result there. *)
Definition string_of_range (SM : SourceManagerT) (first last : Z) : option string :=
  if (0 <=? first) && (first <=? last) && (last <=? str_length (fileBuffer SM))
  then Some (substring (Z.to_nat first) (Z.to_nat (last - first)) (fileBuffer SM))
  else None.

Record LangOptions : Type := mkLangOptions {
  CPlusPlus : bool
}.

(** [MatchFinder::MatchResult]: [Nodes.getNodeAs<FunctionDecl>("target")]
    is a pointer, null when no node is bound. *)
Record MatchResult : Type := mkMatchResult {
  Nodes_target : option FunctionDecl;
  Result_SourceManager : SourceManagerT;
  Context_getLangOpts : LangOptions
}.

(** ** The rewriter

    The handler only calls the [clang::Rewriter]; the model keeps the
    calls it received, oldest first. *)
Inductive SourceEdit : Type :=
| ReplaceText (range : SourceRange) (NewStr : string)
| InsertTextAfter (Loc : SourceLocation) (NewStr : string)
| InsertTextBefore (Loc : SourceLocation) (NewStr : string).

Definition RewriterT : Type := list SourceEdit.

(** ** The handler object and its methods *)

Record MemoizeHandler : Type := mkHandler {
  Rewriter : RewriterT;
  (** both pointers are unset until [run] sets them *)
  SourceManager : option SourceManagerT;
  LanguageOptions : option LangOptions
}.

(** A method either returns, or the process dies on a violated contract
    (a null pointer dereferenced, a bad character range); both leave the
    handler, and so the edits submitted so far, behind. *)
Inductive outcome (A : Type) : Type :=
| Returned (a : A) (h : MemoizeHandler)
| Fatal (h : MemoizeHandler).

Arguments Returned {A} a h.
Arguments Fatal {A} h.

Definition M (A : Type) : Type := MemoizeHandler -> outcome A.

Definition ret {A} (a : A) : M A := fun h => Returned a h.

Definition bind {A B} (m : M A) (k : A -> M B) : M B :=
  fun h => match m h with
           | Returned a h' => k a h'
           | Fatal h' => Fatal h'
           end.

Definition fatal {A} : M A := fun h => Fatal h.

(** dereference of a pointer *)
Definition deref {A} (p : option A) : M A :=
  match p with
  | Some a => ret a
  | None => fatal
  end.

Definition submit (e : SourceEdit) : M unit :=
  fun h => Returned tt (mkHandler (Rewriter h ++ [e])%list (SourceManager h) (LanguageOptions h)).

Definition set_state (SM : SourceManagerT) (LO : LangOptions) : M unit :=
  fun h => Returned tt (mkHandler (Rewriter h) (Some SM) (Some LO)).

Definition get_SourceManager : M (option SourceManagerT) :=
  fun h => Returned (SourceManager h) h.

Declare Scope handler_scope.
Delimit Scope handler_scope with handler.
Notation "x <- m ;; k" := (bind m (fun x => k))
  (at level 61, m at next level, right associativity) : handler_scope.
Notation "m ;; k" := (bind m (fun _ => k))
  (at level 61, right associativity) : handler_scope.
#[local] Open Scope handler_scope.

Definition journal {A} (o : outcome A) : RewriterT :=
  match o with
  | Returned _ h => Rewriter h
  | Fatal h => Rewriter h
  end.

(** [getParameterNames]: the loop over [Function.parameters()], with its
    counter [index] and the string built so far. *)
Fixpoint getParameterNames_loop (NumParams : nat) (Params : list ParmVarDecl)
    (index : nat) (ParameterNames : string) : string :=
  match Params with
  | [] => ParameterNames
  | Param :: rest =>
      let ParameterNames := ParameterNames ++ parmName Param in
      let index := S index in
      let ParameterNames :=
        if (index <? NumParams)%nat then ParameterNames ++ ", " else ParameterNames in
      getParameterNames_loop NumParams rest index ParameterNames
  end.

Definition getParameterNames (Function : FunctionDecl) : string :=
  getParameterNames_loop (getNumParams Function) (parameters Function) 0 "".

Definition createMemoizedDefinition (Function : FunctionDecl)
    (Prototype NewName : string) : string :=
  let MemoizedDefinition := "" in
  let MemoizedDefinition := MemoizedDefinition ++ (LF ++ LF) in
  let MemoizedDefinition := MemoizedDefinition ++ Prototype in
  let MemoizedDefinition :=
    MemoizedDefinition ++ (" {" ++ LF ++ "static const auto proxy = memoize(") in
  let MemoizedDefinition := MemoizedDefinition ++ NewName in
  let MemoizedDefinition := MemoizedDefinition ++ (");" ++ LF ++ "return proxy(") in
  let MemoizedDefinition := MemoizedDefinition ++ getParameterNames Function in
  let MemoizedDefinition := MemoizedDefinition ++ (");" ++ LF ++ "}") in
  MemoizedDefinition.

Definition renameOriginalFunction (Function : FunctionDecl) : M string :=
  let OriginalName := getNameAsString Function in
  let NewName := OriginalName ++ "__original__" in
  let BeforeParameters :=
    getLocWithOffset (getLocation Function)
      (Int.to_int (Int.size_t_wrap (str_length OriginalName - 1))) in
  let DeclarationBegin := getLocStart Function in
  let ReturnType := getReturnType Function in
  let NewDeclaration := ReturnType ++ " " ++ NewName in
  submit (ReplaceText (mkSourceRange DeclarationBegin BeforeParameters) NewDeclaration) ;;
  ret NewName.

Definition getParameterList (Function : FunctionDecl) (Name : string) : M string :=
  let BeforeParametersLocation :=
    getLocWithOffset (getLocation Function) (Int.to_int (str_length Name)) in
  SMp <- get_SourceManager ;;
  SM <- deref SMp ;;
  let BeforeParameters := getCharacterData SM BeforeParametersLocation in
  Body <- deref (getBody Function) ;;
  let AfterParametersLocation := getLocWithOffset (stmt_getLocStart Body) (-1) in
  let AfterParameters := getCharacterData SM AfterParametersLocation in
  deref (string_of_range SM BeforeParameters AfterParameters).

Definition getFunctionPrototype (Function : FunctionDecl) : M string :=
  let Prototype := "" in
  let Name := getNameAsString Function in
  let Prototype := Prototype ++ (getReturnType Function ++ " ") in
  let Prototype := Prototype ++ Name in
  ParameterList <- getParameterList Function Name ;;
  ret (Prototype ++ ParameterList).

Definition run (Result : MatchResult) : M unit :=
  set_state (Result_SourceManager Result) (Context_getLangOpts Result) ;;
  (* [Function] is bound by dereferencing the pointer; the [assert] on the
     reference that follows holds whenever that succeeded *)
  Function <- deref (Nodes_target Result) ;;
  NewName <- renameOriginalFunction Function ;;
  Prototype <- getFunctionPrototype Function ;;
  let NewDefinition := createMemoizedDefinition Function Prototype NewName in
  let AfterOriginalFunction := getLocWithOffset (getLocEnd Function) 1 in
  submit (InsertTextAfter AfterOriginalFunction NewDefinition) ;;
  submit (InsertTextBefore (getLocStart Function) (Prototype ++ (";" ++ LF))).

(** The edits one invocation added to the rewriter of handler [h]. *)
Definition submitted {A} (h : MemoizeHandler) (o : outcome A) : list SourceEdit :=
  skipn (List.length (Rewriter h)) (journal o).

(** ** Vocabulary of the specification *)

Inductive EditKind : Type := replace | insertAfter | insertBefore.

Definition edit_kind (e : SourceEdit) : EditKind :=
  match e with
  | ReplaceText _ _ => replace
  | InsertTextAfter _ _ => insertAfter
  | InsertTextBefore _ _ => insertBefore
  end.

(** The source offsets an edit refers to. *)
Definition offsets_of (e : SourceEdit) : list SourceLocation :=
  match e with
  | ReplaceText range _ => [getBegin range; getEnd range]
  | InsertTextAfter Loc _ => [Loc]
  | InsertTextBefore Loc _ => [Loc]
  end.

(** The edit-order property, for a comparison [before] of offsets: the
    plan has three edits, the last one is the insertBefore, and its
    target is [before] every offset of the first two. *)
Definition edit_order (before : Z -> Z -> Prop) (plan : list SourceEdit) : Prop :=
  match plan with
  | [e1; e2; InsertTextBefore Loc _] =>
      Forall (before Loc) (offsets_of e1 ++ offsets_of e2)
  | _ => False
  end.

(** Where the parameter list starts: the location [getParameterList]
    reads from, right after the name. *)
Definition parameterListLocation (Function : FunctionDecl) : SourceLocation :=
  getLocWithOffset (getLocation Function) (Int.to_int (str_length (getNameAsString Function))).


(** ... and the definition lies in the buffer the way a parsed definition
    does: declaration start, name, parameter list, opening brace, closing
    brace, in this order. *)
Record located (SM : SourceManagerT) (Function : FunctionDecl) (Body : Stmt) : Prop :=
  mkLocated {
    loc_start : 0 <= getLocStart Function <= getLocation Function;
    loc_name : 0 < str_length (getNameAsString Function) < 2 ^ 31;
    loc_params :
      getLocation Function + str_length (getNameAsString Function) < stmt_getLocStart Body;
    loc_body : stmt_getLocStart Body < getLocEnd Function;
    loc_end : getLocEnd Function < str_length (fileBuffer SM)
  }.


Definition names_of (Params : list ParmVarDecl) : list string := map parmName Params.

(** Every string of [names] followed by [sep]: [n1 sep n2 sep ...]. *)
Fixpoint each_followed_by (sep : string) (names : list string) : string :=
  match names with
  | [] => ""
  | n :: rest => n ++ sep ++ each_followed_by sep rest
  end.

(** The text [getParameterList] copies out of the buffer of a located
    definition, and the prototype [getFunctionPrototype] builds from it. *)
Definition parameterListText (SM : SourceManagerT) (Function : FunctionDecl)
    (Body : Stmt) : string :=
  substring (Z.to_nat (parameterListLocation Function))
    (Z.to_nat (stmt_getLocStart Body - 1 - parameterListLocation Function))
    (fileBuffer SM).

Definition prototypeText (SM : SourceManagerT) (Function : FunctionDecl)
    (Body : Stmt) : string :=
  getReturnType Function ++ " " ++ getNameAsString Function
    ++ parameterListText SM Function Body.

(** The handler after a completed [run] that submitted [edits]. *)
Definition after_run (Result : MatchResult) (h : MemoizeHandler)
    (edits : list SourceEdit) : MemoizeHandler :=
  mkHandler (Rewriter h ++ edits)%list
    (Some (Result_SourceManager Result)) (Some (Context_getLangOpts Result)).

(** The prototype as the specification words it: return type, name, and
    the parameters as [(T1 n1, T2 n2)]. *)
Definition spec_parameter_list (Function : FunctionDecl) : string :=
  "(" ++ String.concat ", "
           (map (fun p => parmTypeText p ++ " " ++ parmName p) (parameters Function))
      ++ ")".

Definition spec_prototype (Function : FunctionDecl) : string :=
  getReturnType Function ++ " " ++ getNameAsString Function ++ spec_parameter_list Function.

(** ** The text a rewriter produces

    The editor the handler submits to is clang's [Rewriter], which is not
    part of the repository; this section models its [RewriteBuffer].  The
    calls take offsets of the original buffer; the buffer being rewritten
    keeps the length changes (deltas) of the edits applied so far and maps
    each offset through them. *)

Fixpoint drop (n : nat) (s : string) : string :=
  match n, s with
  | O, _ => s
  | S n', String _ s' => drop n' s'
  | S _, EmptyString => EmptyString
  end.

(** [Buffer.insert(pos, ins)] *)
Fixpoint insert_at (pos : nat) (ins s : string) : string :=
  match pos, s with
  | O, _ => ins ++ s
  | S pos', String c s' => String c (insert_at pos' ins s')
  | S _, EmptyString => ins
  end.

(** [Buffer.erase(pos, len)] *)
Fixpoint erase_at (pos len : nat) (s : string) : string :=
  match pos, s with
  | O, _ => drop len s
  | S pos', String c s' => String c (erase_at pos' len s')
  | S _, EmptyString => EmptyString
  end.

Module RewriteBuffer.

(** A delta is recorded at twice the original offset for an insertion and
    at twice the offset plus one for a replacement. *)
Record t : Type := mk {
  Buffer : string;
  Deltas : list (Z * Z)
}.

Definition initial (source : string) : t := mk source [].

(** The sum of the deltas recorded before [FileIndex]. *)
Fixpoint getDeltaAt (deltas : list (Z * Z)) (FileIndex : Z) : Z :=
  match deltas with
  | [] => 0
  | (key, delta) :: rest =>
      (if key <? FileIndex then delta else 0) + getDeltaAt rest FileIndex
  end.

Definition getMappedOffset (rb : t) (OrigOffset : Z) (AfterInserts : bool) : Z :=
  getDeltaAt (Deltas rb) (2 * OrigOffset + (if AfterInserts then 1 else 0)) + OrigOffset.

Definition InsertText (rb : t) (OrigOffset : Z) (Str : string) (InsertAfter : bool) : t :=
  if str_length Str =? 0 then rb
  else
    let RealOffset := getMappedOffset rb OrigOffset InsertAfter in
    mk (insert_at (Z.to_nat RealOffset) Str (Buffer rb))
       ((2 * OrigOffset, str_length Str) :: Deltas rb).

Definition ReplaceText (rb : t) (OrigOffset OrigLength : Z) (NewStr : string) : t :=
  let RealOffset := getMappedOffset rb OrigOffset true in
  let erased := erase_at (Z.to_nat RealOffset) (Z.to_nat OrigLength) (Buffer rb) in
  mk (insert_at (Z.to_nat RealOffset) NewStr erased)
     (if OrigLength =? str_length NewStr then Deltas rb
      else (2 * OrigOffset + 1, str_length NewStr - OrigLength) :: Deltas rb).

End RewriteBuffer.

Section Rendering.

(** [Lexer::MeasureTokenLength]: the length of the token that starts at a
    location of the original buffer. *)
Variable MeasureTokenLength : SourceLocation -> Z.

(** A [SourceRange] names its last token by the token's first character:
    the size of the range reaches to the end of that token. *)
Definition getRangeSize (rb : RewriteBuffer.t) (range : SourceRange) : Z :=
  let EndOff := RewriteBuffer.getMappedOffset rb (getEnd range) true in
  let StartOff := RewriteBuffer.getMappedOffset rb (getBegin range) true in
  EndOff + MeasureTokenLength (getEnd range) - StartOff.

Definition apply_edit (rb : RewriteBuffer.t) (e : SourceEdit) : RewriteBuffer.t :=
  match e with
  | ReplaceText range NewStr =>
      RewriteBuffer.ReplaceText rb (getBegin range) (getRangeSize rb range) NewStr
  | InsertTextAfter Loc NewStr => RewriteBuffer.InsertText rb Loc NewStr true
  | InsertTextBefore Loc NewStr => RewriteBuffer.InsertText rb Loc NewStr false
  end.

(** The text of the file after the edits, applied oldest first to the
    original [source]. *)
Definition rewritten (source : string) (edits : list SourceEdit) : string :=
  RewriteBuffer.Buffer (fold_left apply_edit edits (RewriteBuffer.initial source)).

End Rendering.

(** ** Worked inputs *)

Definition fresh_handler : MemoizeHandler := mkHandler [] None None.

(** [int f(int x) { return x; }] *)
Definition f_source : SourceManagerT :=
  mkSourceManager "int f(int x) { return x; }".

Definition f_body : Stmt := mkStmt 13.

Definition f_decl : FunctionDecl :=
  mkFunctionDecl "f" "int" [mkParm "int" "x"] 4 0 25 (Some f_body).

Definition f_match : MatchResult :=
  mkMatchResult (Some f_decl) f_source (mkLangOptions true).

(** The same definition with no blank before the opening brace:
    [int f(int x){ return x; }] *)
Definition tight_source : SourceManagerT :=
  mkSourceManager "int f(int x){ return x; }".

Definition tight_body : Stmt := mkStmt 12.

Definition tight_decl : FunctionDecl :=
  mkFunctionDecl "f" "int" [mkParm "int" "x"] 4 0 24 (Some tight_body).

Definition tight_match : MatchResult :=
  mkMatchResult (Some tight_decl) tight_source (mkLangOptions true).

(** [void g() { }] *)
Definition g_source : SourceManagerT := mkSourceManager "void g() { }".

Definition g_body : Stmt := mkStmt 9.

Definition g_decl : FunctionDecl :=
  mkFunctionDecl "g" "void" [] 5 0 11 (Some g_body).

Definition g_match : MatchResult :=
  mkMatchResult (Some g_decl) g_source (mkLangOptions true).

(** A match result with no node bound to [target]. *)
Definition null_match : MatchResult :=
  mkMatchResult None f_source (mkLangOptions true).

(** [int h(int x, int, int z) { return x; }]: the second parameter has
    no name. *)
Definition h_source : SourceManagerT :=
  mkSourceManager "int h(int x, int, int z) { return x; }".

Definition h_body : Stmt := mkStmt 25.

Definition h_decl : FunctionDecl :=
  mkFunctionDecl "h" "int" [mkParm "int" "x"; mkParm "int" ""; mkParm "int" "z"]
    4 0 37 (Some h_body).

Definition h_match : MatchResult :=
  mkMatchResult (Some h_decl) h_source (mkLangOptions true).

(** ** Observations on outcomes *)

(** The constructor: the handler keeps the rewriter it is given; its two
    pointers are not initialised. *)
Definition MemoizeHandler_new (TheRewriter : RewriterT) : MemoizeHandler :=
  mkHandler TheRewriter None None.

Definition returns {A} (o : outcome A) : bool :=
  match o with
  | Returned _ _ => true
  | Fatal _ => false
  end.

Definition returned_value {A} (o : outcome A) : option A :=
  match o with
  | Returned a _ => Some a
  | Fatal _ => None
  end.

Definition handler_of {A} (o : outcome A) : MemoizeHandler :=
  match o with
  | Returned _ h => h
  | Fatal h => h
  end.

(** The edit [renameOriginalFunction] submits. *)
Definition rename_edit (Function : FunctionDecl) : SourceEdit :=
  ReplaceText
    (mkSourceRange (getLocStart Function)
       (getLocWithOffset (getLocation Function)
          (Int.to_int (Int.size_t_wrap (str_length (getNameAsString Function) - 1)))))
    (getReturnType Function ++ " " ++ getNameAsString Function ++ "__original__").

(** The two insertions [run] submits once the prototype is known. *)
Definition insertion_edits (Function : FunctionDecl) (Prototype : string)
  : list SourceEdit :=
  [InsertTextAfter (getLocWithOffset (getLocEnd Function) 1)
     (createMemoizedDefinition Function Prototype
        (getNameAsString Function ++ "__original__"));
   InsertTextBefore (getLocStart Function) (Prototype ++ ";" ++ LF)].

(** [int f(int x) const { return x; }]: a qualifier between the closing
    parenthesis and the body. *)
Definition const_source : SourceManagerT :=
  mkSourceManager "int f(int x) const { return x; }".

Definition const_body : Stmt := mkStmt 19.

Definition const_decl : FunctionDecl :=
  mkFunctionDecl "f" "int" [mkParm "int" "x"] 4 0 31 (Some const_body).

Definition const_match : MatchResult :=
  mkMatchResult (Some const_decl) const_source (mkLangOptions true).

(** [int f(int x);]: a declaration, without a body. *)
Definition decl_only_source : SourceManagerT := mkSourceManager "int f(int x);".

Definition decl_only : FunctionDecl :=
  mkFunctionDecl "f" "int" [mkParm "int" "x"] 4 0 11 None.

Definition decl_only_match : MatchResult :=
  mkMatchResult (Some decl_only) decl_only_source (mkLangOptions true).

(** ** Reading the buffer *)

(** The text [s] stands in the buffer at offset [pos]. *)
Definition text_at (SM : SourceManagerT) (pos : Z) (s : string) : Prop :=
  0 <= pos /\ substring (Z.to_nat pos) (String.length s) (fileBuffer SM) = s.

(** The character [c] stands in the buffer at offset [pos]. *)
Definition char_at (SM : SourceManagerT) (pos : Z) (c : ascii) : Prop :=
  0 <= pos /\ String.get (Z.to_nat pos) (fileBuffer SM) = Some c.

(** The span of the rename as the specification words it: it begins where
    the return type begins, and its last location is the one right before
    the opening parenthesis of the parameter list. *)
Definition spans_return_type_to_parenthesis (SM : SourceManagerT)
    (Function : FunctionDecl) (range : SourceRange) : Prop :=
  text_at SM (getBegin range) (getReturnType Function)
  /\ char_at SM (getEnd range + 1) "(".

(** The wrapper and the forward declaration as the specification words
    them, over the prototype and the forwarding list of the
    specification. *)
Definition spec_wrapper (Function : FunctionDecl) : string :=
  LF ++ LF ++ spec_prototype Function ++ " {" ++ LF
    ++ "static const auto proxy = memoize("
    ++ (getNameAsString Function ++ "__original__") ++ ");" ++ LF
    ++ "return proxy(" ++ String.concat ", " (names_of (parameters Function))
    ++ ");" ++ LF ++ "}".

Definition spec_declaration (Function : FunctionDecl) : string :=
  spec_prototype Function ++ ";" ++ LF.





(** * Properties *)

(** ** Machine integers *)

Lemma to_int_small z : - 2 ^ 31 <= z < 2 ^ 31 -> Int.to_int z = z.
Proof.
  intros Hz. unfold Int.to_int.
  rewrite Z.mod_small by lia. lia.
Qed.

Lemma size_t_wrap_small z : 0 <= z < 2 ^ 64 -> Int.size_t_wrap z = z.
Proof. intros Hz. unfold Int.size_t_wrap. now apply Z.mod_small. Qed.

Lemma str_length_nonneg s : 0 <= str_length s.
Proof. unfold str_length. lia. Qed.

(** The offset of the last character of a name, as [renameOriginalFunction]
    computes it, is one less than the offset [getParameterList] uses. *)
Lemma last_char_offset n :
  0 <= n < 2 ^ 31 ->
  Int.to_int (Int.size_t_wrap (n - 1)) = Int.to_int n - 1.
Proof.
  intros Hn. destruct (Z.eq_dec n 0) as [-> | Hpos].
  - reflexivity.
  - rewrite size_t_wrap_small by lia.
    rewrite !to_int_small by lia. reflexivity.
Qed.

(** ** Strings *)

Lemma append_nil_r s : s ++ "" = s.
Proof. induction s as [| c s IH]; simpl; [reflexivity | now rewrite IH]. Qed.

Lemma append_assoc s1 s2 s3 : (s1 ++ s2) ++ s3 = s1 ++ (s2 ++ s3).
Proof. induction s1 as [| c s1 IH]; simpl; [reflexivity | now rewrite IH]. Qed.

(** ** [getParameterNames] *)

(** The loop invariant: with [index] parameters done and the rest still to
    come, the loop appends the rest, separated. *)
Lemma getParameterNames_loop_spec NumParams Params :
  forall index acc,
    (index + List.length Params = NumParams)%nat ->
    getParameterNames_loop NumParams Params index acc
    = acc ++ String.concat ", " (names_of Params).
Proof.
  induction Params as [| p rest IH]; intros index acc Hlen.
  - simpl. now rewrite append_nil_r.
  - cbn [getParameterNames_loop]. cbn [List.length] in Hlen.
    rewrite IH by lia.
    destruct rest as [| q rest'].
    + cbn [List.length] in Hlen.
      replace (S index <? NumParams)%nat with false
        by (symmetry; apply Nat.ltb_ge; lia).
      simpl. now rewrite append_nil_r.
    + cbn [List.length] in Hlen.
      replace (S index <? NumParams)%nat with true
        by (symmetry; apply Nat.ltb_lt; lia).
      cbn [names_of map String.concat].
      now rewrite !append_assoc.
Qed.

Lemma getParameterNames_concat Function :
  getParameterNames Function = String.concat ", " (names_of (parameters Function)).
Proof.
  unfold getParameterNames, getNumParams.
  now rewrite getParameterNames_loop_spec by reflexivity.
Qed.

(** ** [run] on a located definition *)

Lemma string_of_range_located SM Function Body :
  located SM Function Body ->
  string_of_range SM (parameterListLocation Function) (stmt_getLocStart Body - 1)
  = Some (parameterListText SM Function Body).
Proof.
  intros [Hs Hn Hp Hb He].
  unfold string_of_range, parameterListText, parameterListLocation, getLocWithOffset.
  rewrite to_int_small by lia.
  replace (0 <=? _) with true by (symmetry; apply Z.leb_le; lia).
  replace (_ <=? stmt_getLocStart Body - 1) with true by (symmetry; apply Z.leb_le; lia).
  replace (_ <=? str_length _) with true by (symmetry; apply Z.leb_le; lia).
  reflexivity.
Qed.

(** The rename always goes through: one [ReplaceText] is submitted and the
    mangled name returned. *)
Lemma renameOriginalFunction_spec Function h :
  renameOriginalFunction Function h
  = Returned (getNameAsString Function ++ "__original__")
      (mkHandler
         (Rewriter h ++
          [ReplaceText
             (mkSourceRange (getLocStart Function)
                (getLocation Function
                 + Int.to_int (Int.size_t_wrap (str_length (getNameAsString Function) - 1))))
             (getReturnType Function ++ " " ++ getNameAsString Function ++ "__original__")])%list
         (SourceManager h) (LanguageOptions h)).
Proof. reflexivity. Qed.

Lemma getParameterList_located SM Function Body h :
  SourceManager h = Some SM ->
  getBody Function = Some Body ->
  located SM Function Body ->
  getParameterList Function (getNameAsString Function) h
  = Returned (parameterListText SM Function Body) h.
Proof.
  intros HSM Hbody Hloc.
  pose proof (string_of_range_located _ _ _ Hloc) as Hrange.
  cbv beta iota zeta delta [getParameterList bind get_SourceManager deref ret getCharacterData].
  rewrite HSM, Hbody.
  change (getLocWithOffset (getLocation Function)
            (Int.to_int (str_length (getNameAsString Function))))
    with (parameterListLocation Function).
  replace (getLocWithOffset (stmt_getLocStart Body) (-1))
    with (stmt_getLocStart Body - 1) by (unfold getLocWithOffset; lia).
  now rewrite Hrange.
Qed.

Lemma getFunctionPrototype_located SM Function Body h :
  SourceManager h = Some SM ->
  getBody Function = Some Body ->
  located SM Function Body ->
  getFunctionPrototype Function h = Returned (prototypeText SM Function Body) h.
Proof.
  intros HSM Hbody Hloc.
  unfold getFunctionPrototype, bind.
  rewrite (getParameterList_located SM Function Body h HSM Hbody Hloc).
  unfold ret, prototypeText. cbn [append].
  now rewrite !append_assoc.
Qed.

Lemma run_located Result h Function Body :
  Nodes_target Result = Some Function ->
  getBody Function = Some Body ->
  located (Result_SourceManager Result) Function Body ->
  run Result h
  = Returned tt
      (after_run Result h
         [ReplaceText
            (mkSourceRange (getLocStart Function)
               (getLocation Function + str_length (getNameAsString Function) - 1))
            (getReturnType Function ++ " " ++ getNameAsString Function ++ "__original__");
          InsertTextAfter (getLocEnd Function + 1)
            (createMemoizedDefinition Function
               (prototypeText (Result_SourceManager Result) Function Body)
               (getNameAsString Function ++ "__original__"));
          InsertTextBefore (getLocStart Function)
            (prototypeText (Result_SourceManager Result) Function Body ++ ";" ++ LF)]).
Proof.
  intros Htarget Hbody Hloc.
  unfold run, bind at 1 2 3.
  rewrite Htarget. cbn [set_state deref ret].
  rewrite renameOriginalFunction_spec.
  unfold bind at 1.
  erewrite getFunctionPrototype_located by (try reflexivity; eassumption).
  destruct Hloc as [Hs Hn Hp Hb He].
  cbv beta iota zeta delta [bind submit after_run getLocWithOffset
                              Rewriter SourceManager LanguageOptions].
  rewrite last_char_offset by lia.
  rewrite to_int_small by lia.
  rewrite <- !app_assoc. cbn [app].
  replace (getLocation Function + (str_length (getNameAsString Function) - 1))
    with (getLocation Function + str_length (getNameAsString Function) - 1) by lia.
  reflexivity.
Qed.

Lemma submitted_after_run Result h edits :
  submitted h (Returned tt (after_run Result h edits)) = edits.
Proof.
  unfold submitted, journal, after_run. cbn [Rewriter].
  rewrite skipn_app, skipn_all, Nat.sub_diag. reflexivity.
Qed.

(** [getFunctionPrototype] submits nothing: it returns a string or dies,
    with the handler as it found it. *)
Lemma getFunctionPrototype_cases Function h :
  (exists Prototype, getFunctionPrototype Function h = Returned Prototype h)
  \/ getFunctionPrototype Function h = Fatal h.
Proof.
  cbv beta iota zeta delta
    [getFunctionPrototype getParameterList bind get_SourceManager deref ret fatal].
  destruct (SourceManager h) as [SM |]; [| now right].
  destruct (getBody Function) as [Body |]; [| now right].
  destruct (string_of_range _ _ _) as [ParameterList |]; [| now right].
  left. eexists. reflexivity.
Qed.

(** Whatever the definition looks like, a non-null match gets its rename
    submitted first: [run] dies, if it does, only after it. *)
Lemma run_starts_with_rename Result h Function :
  Nodes_target Result = Some Function ->
  exists rest,
    submitted h (run Result h)
    = ReplaceText
        (mkSourceRange (getLocStart Function)
           (getLocation Function
            + Int.to_int (Int.size_t_wrap (str_length (getNameAsString Function) - 1))))
        (getReturnType Function ++ " " ++ getNameAsString Function ++ "__original__")
      :: rest.
Proof.
  intros Htarget.
  unfold run, bind at 1 2 3. rewrite Htarget. cbn [set_state deref ret].
  rewrite renameOriginalFunction_spec. unfold bind at 1.
  match goal with
  | |- context [getFunctionPrototype Function ?h'] =>
      destruct (getFunctionPrototype_cases Function h') as [[Prototype HP] | HP];
      rewrite HP
  end.
  - eexists.
    cbv beta iota zeta delta [bind submit submitted journal
                                Rewriter SourceManager LanguageOptions].
    rewrite <- !app_assoc. rewrite skipn_app, skipn_all, Nat.sub_diag.
    reflexivity.
  - exists [].
    cbv beta iota zeta delta [submitted journal Rewriter].
    rewrite skipn_app, skipn_all, Nat.sub_diag. reflexivity.
Qed.

(** ** The edit sequence of one invocation *)



(** C2, as stated, fails on [int f(int x) { return x; }]: the insertBefore
    targets offset 0, which is also where the replaced range begins, so
    it is not strictly less than every offset of the replace edit. *)
Lemma edit_order_strict_fails :
  submitted fresh_handler (run f_match fresh_handler)
  = [ReplaceText (mkSourceRange 0 4) "int f__original__";
     InsertTextAfter 26
       (createMemoizedDefinition f_decl "int f(int x)" "f__original__");
     InsertTextBefore 0 ("int f(int x);" ++ LF)]
  /\ ~ edit_order Z.lt (submitted fresh_handler (run f_match fresh_handler)).
Proof.
  split; [reflexivity |].
  vm_compute. intros H. inversion H as [| x l Hlt Hrest]; subst.
  discriminate Hlt.
Qed.

(** C2, amended: the insertBefore edit is submitted last, after the
    replace and the insertAfter; its target is the start of the replaced
    range, hence not after any offset of the replace edit, and it is
    strictly before the insertAfter offset. *)
Theorem edit_order_holds Result h Function Body :
  Nodes_target Result = Some Function ->
  getBody Function = Some Body ->
  located (Result_SourceManager Result) Function Body ->
  edit_order Z.le (submitted h (run Result h))
  /\ exists range NewDeclaration After NewDefinition Before Declaration,
       submitted h (run Result h)
       = [ReplaceText range NewDeclaration;
          InsertTextAfter After NewDefinition;
          InsertTextBefore Before Declaration]
       /\ Before = getBegin range
       /\ Before <= getEnd range
       /\ Before < After.
Proof.
  intros Htarget Hbody Hloc.
  rewrite (run_located Result h Function Body Htarget Hbody Hloc).
  rewrite submitted_after_run.
  destruct Hloc as [Hs Hn Hp Hb He].
  split.
  - cbn [edit_order offsets_of app getBegin getEnd].
    repeat constructor; lia.
  - do 6 eexists. split; [reflexivity |].
    cbn [getBegin getEnd]. repeat split; lia.
Qed.

Lemma edit_order_holds_witness :
  edit_order Z.le (submitted fresh_handler (run f_match fresh_handler))
  /\ exists range NewDeclaration After NewDefinition Before Declaration,
       submitted fresh_handler (run f_match fresh_handler)
       = [ReplaceText range NewDeclaration;
          InsertTextAfter After NewDefinition;
          InsertTextBefore Before Declaration]
       /\ Before = getBegin range
       /\ Before <= getEnd range
       /\ Before < After.
Proof.
  apply (edit_order_holds f_match fresh_handler f_decl f_body).
  - reflexivity.
  - reflexivity.
  - constructor; unfold str_length; cbn; lia.
Defined.

(** ** The rename *)




(** On [int f(int x) { return x; }], where the declaration begins with its
    return type and the parenthesis follows the name, the range is the
    one the specification describes. *)
Example rename_span_f :
  spans_return_type_to_parenthesis f_source f_decl (mkSourceRange 0 4).
Proof. split; (split; [simpl; lia | reflexivity]). Qed.

(** ** The prototype *)

Lemma substring_middle pre mid post :
  substring (String.length pre) (String.length mid) (pre ++ mid ++ post) = mid.
Proof.
  induction pre as [| c pre IH]; cbn [String.length append].
  - induction mid as [| d mid IHm]; cbn [String.length append].
    + now destruct post.
    + cbn [substring]. now rewrite IHm.
  - exact IH.
Qed.

Lemma length_append s t :
  String.length (s ++ t) = (String.length s + String.length t)%nat.
Proof. induction s as [| c s IH]; cbn; [reflexivity | now rewrite IH]. Qed.

(** Where exactly one character separates the closing parenthesis from the
    opening brace, the prototype is the one the specification describes. *)
Lemma prototype_one_separator SM Function Body pre sep rest :
  fileBuffer SM = pre ++ spec_parameter_list Function ++ String sep rest ->
  str_length pre = parameterListLocation Function ->
  stmt_getLocStart Body
  = parameterListLocation Function + str_length (spec_parameter_list Function) + 1 ->
  prototypeText SM Function Body = spec_prototype Function.
Proof.
  intros Hbuf Hpre Hbrace.
  unfold prototypeText, spec_prototype, parameterListText.
  rewrite Hbuf, Hbrace, <- Hpre.
  replace (Z.to_nat (str_length pre)) with (String.length pre)
    by (unfold str_length; lia).
  replace (Z.to_nat _) with (String.length (spec_parameter_list Function))
    by (unfold str_length; lia).
  now rewrite substring_middle.
Qed.

(** Where the opening brace follows the closing parenthesis directly, the
    text copied stops one character early and the parenthesis is lost. *)
Lemma prototype_no_separator SM Function Body pre rest :
  fileBuffer SM = pre ++ spec_parameter_list Function ++ rest ->
  str_length pre = parameterListLocation Function ->
  stmt_getLocStart Body
  = parameterListLocation Function + str_length (spec_parameter_list Function) ->
  prototypeText SM Function Body
  = getReturnType Function ++ " " ++ getNameAsString Function ++ "("
      ++ String.concat ", "
           (map (fun p => parmTypeText p ++ " " ++ parmName p) (parameters Function)).
Proof.
  intros Hbuf Hpre Hbrace.
  unfold prototypeText, parameterListText.
  rewrite Hbuf, Hbrace, <- Hpre.
  unfold spec_parameter_list.
  set (inner := String.concat ", " _).
  replace (Z.to_nat (str_length pre)) with (String.length pre)
    by (unfold str_length; lia).
  replace (Z.to_nat _) with (String.length ("(" ++ inner)).
  - replace (pre ++ ("(" ++ inner ++ ")") ++ rest)
      with (pre ++ ("(" ++ inner) ++ (")" ++ rest))
      by (now rewrite !append_assoc).
    now rewrite substring_middle.
  - unfold str_length. cbn [append String.length].
    rewrite length_append. cbn [String.length]. lia.
Qed.

(** C4 on [int f(int x){ return x; }], where no blank precedes the opening
    brace: the prototype [getFunctionPrototype] computes is [int f(int x],
    without the closing parenthesis, and this is the text both insertions
    carry. *)
Theorem prototype_loses_parenthesis :
  getFunctionPrototype tight_decl (after_run tight_match fresh_handler [])
  = Returned "int f(int x" (after_run tight_match fresh_handler [])
  /\ spec_prototype tight_decl = "int f(int x)"
  /\ submitted fresh_handler (run tight_match fresh_handler)
     = [ReplaceText (mkSourceRange 0 4) "int f__original__";
        InsertTextAfter 25
          (LF ++ LF ++ "int f(int x {" ++ LF
             ++ "static const auto proxy = memoize(f__original__);" ++ LF
             ++ "return proxy(x);" ++ LF ++ "}");
        InsertTextBefore 0 ("int f(int x;" ++ LF)].
Proof. repeat split. Qed.

(** On [int f(int x) { return x; }] the prototype is the expected one. *)
Example prototype_f :
  getFunctionPrototype f_decl (after_run f_match fresh_handler [])
  = Returned (spec_prototype f_decl) (after_run f_match fresh_handler []).
Proof. reflexivity. Qed.

(** ** The wrapper definition *)

Lemma createMemoizedDefinition_text Function Prototype NewName :
  createMemoizedDefinition Function Prototype NewName
  = LF ++ LF ++ Prototype ++ " {" ++ LF
      ++ "static const auto proxy = memoize(" ++ NewName ++ ");" ++ LF
      ++ "return proxy(" ++ getParameterNames Function ++ ");" ++ LF ++ "}".
Proof.
  unfold createMemoizedDefinition.
  cbn [append LF]. now rewrite !append_assoc.
Qed.

(** Where exactly one character separates the closing parenthesis from the
    opening brace, the second edit inserts, one past the closing brace, the
    wrapper the specification describes: the prototype under the original
    name, the static [proxy] made by [memoize] of the mangled name, and
    the call of [proxy] on the parameter names in declared order. *)
Lemma wrapper_one_separator Result h Function Body pre sep rest :
  Nodes_target Result = Some Function ->
  getBody Function = Some Body ->
  located (Result_SourceManager Result) Function Body ->
  fileBuffer (Result_SourceManager Result)
  = pre ++ spec_parameter_list Function ++ String sep rest ->
  str_length pre = parameterListLocation Function ->
  stmt_getLocStart Body
  = parameterListLocation Function + str_length (spec_parameter_list Function) + 1 ->
  nth_error (submitted h (run Result h)) 1
  = Some (InsertTextAfter (getLocEnd Function + 1) (spec_wrapper Function)).
Proof.
  intros Htarget Hbody Hloc Hbuf Hpre Hbrace.
  rewrite (run_located Result h Function Body Htarget Hbody Hloc).
  rewrite submitted_after_run. cbn [nth_error].
  rewrite (prototype_one_separator _ Function Body pre sep rest Hbuf Hpre Hbrace).
  rewrite createMemoizedDefinition_text, getParameterNames_concat.
  reflexivity.
Qed.

(** C5 on [int f(int x){ return x; }], where no blank precedes the opening
    brace: the wrapper is inserted one past the closing brace, declares
    the static [proxy] and forwards [x], but the prototype it opens with
    is [int f(int x], without the closing parenthesis, where the wrapper
    of the specification has the full prototype [int f(int x)]. *)
Theorem wrapper_loses_parenthesis :
  nth_error (submitted fresh_handler (run tight_match fresh_handler)) 1
  = Some (InsertTextAfter 25
            (LF ++ LF ++ "int f(int x {" ++ LF
               ++ "static const auto proxy = memoize(f__original__);" ++ LF
               ++ "return proxy(x);" ++ LF ++ "}"))
  /\ spec_wrapper tight_decl
     = LF ++ LF ++ "int f(int x) {" ++ LF
         ++ "static const auto proxy = memoize(f__original__);" ++ LF
         ++ "return proxy(x);" ++ LF ++ "}"
  /\ nth_error (submitted fresh_handler (run tight_match fresh_handler)) 1
     <> Some (InsertTextAfter 25 (spec_wrapper tight_decl)).
Proof.
  split; [reflexivity |]. split; [reflexivity |].
  vm_compute. discriminate.
Qed.

(** On [int f(int x) { return x; }] and on [void g() { }] the wrapper is
    the one of the specification; the second calls [proxy()]. *)
Example wrapper_f :
  nth_error (submitted fresh_handler (run f_match fresh_handler)) 1
  = Some (InsertTextAfter 26 (spec_wrapper f_decl)).
Proof.
  apply (wrapper_one_separator f_match fresh_handler f_decl f_body
           "int f" " " "{ return x; }"); try reflexivity.
  constructor; unfold str_length; cbn; lia.
Qed.

Example wrapper_g :
  nth_error (submitted fresh_handler (run g_match fresh_handler)) 1
  = Some (InsertTextAfter 12
            (LF ++ LF ++ "void g() {" ++ LF
               ++ "static const auto proxy = memoize(g__original__);" ++ LF
               ++ "return proxy();" ++ LF ++ "}")).
Proof. reflexivity. Qed.

(** ** The forwarded parameter names *)

Lemma concat_cons sep a b rest :
  String.concat sep (a :: b :: rest) = a ++ sep ++ String.concat sep (b :: rest).
Proof. reflexivity. Qed.

Lemma concat_snoc sep init last :
  String.concat sep (init ++ [last]) = each_followed_by sep init ++ last.
Proof.
  induction init as [| a init IH].
  - reflexivity.
  - destruct init as [| b init'].
    + cbn [app each_followed_by String.concat append].
      now rewrite !append_assoc.
    + change ((a :: b :: init') ++ [last])%list with (a :: b :: (init' ++ [last]))%list.
      rewrite concat_cons.
      change (b :: (init' ++ [last]))%list with ((b :: init') ++ [last])%list.
      rewrite IH.
      change (each_followed_by sep (a :: b :: init'))
        with (a ++ sep ++ each_followed_by sep (b :: init')).
      now rewrite !append_assoc.
Qed.

(** C6: the forwarding list is the parameter names in declared order,
    joined by a comma and a blank; every name but the last is followed by
    the separator and the last by nothing; with no parameters the list is
    the empty string. *)
Theorem parameter_names_spec Function :
  getParameterNames Function = String.concat ", " (names_of (parameters Function))
  /\ (forall init last,
        parameters Function = (init ++ [last])%list ->
        getParameterNames Function
        = each_followed_by ", " (names_of init) ++ parmName last)
  /\ (parameters Function = [] -> getParameterNames Function = "").
Proof.
  split; [apply getParameterNames_concat |]. split.
  - intros init last Hparams.
    rewrite getParameterNames_concat, Hparams.
    unfold names_of. rewrite map_app. apply concat_snoc.
  - intros Hnil. now rewrite getParameterNames_concat, Hnil.
Qed.

Lemma parameter_names_spec_witness :
  getParameterNames h_decl = String.concat ", " ["x"; ""; "z"]
  /\ getParameterNames h_decl = each_followed_by ", " ["x"; ""] ++ "z"
  /\ getParameterNames g_decl = "".
Proof.
  destruct (parameter_names_spec h_decl) as [Hjoin [Hlast _]].
  destruct (parameter_names_spec g_decl) as [_ [_ Hnil]].
  split; [exact Hjoin |]. split.
  - apply (Hlast [mkParm "int" "x"; mkParm "int" ""] (mkParm "int" "z")).
    reflexivity.
  - apply Hnil. reflexivity.
Defined.

(** ** The forward declaration *)

(** Where exactly one character separates the closing parenthesis from the
    opening brace, the third and last edit inserts, at the start of the
    definition, the forward declaration the specification describes,
    after the replace and the insertAfter. *)
Lemma declaration_one_separator Result h Function Body pre sep rest :
  Nodes_target Result = Some Function ->
  getBody Function = Some Body ->
  located (Result_SourceManager Result) Function Body ->
  fileBuffer (Result_SourceManager Result)
  = pre ++ spec_parameter_list Function ++ String sep rest ->
  str_length pre = parameterListLocation Function ->
  stmt_getLocStart Body
  = parameterListLocation Function + str_length (spec_parameter_list Function) + 1 ->
  exists e1 e2,
    submitted h (run Result h)
    = [e1; e2; InsertTextBefore (getLocStart Function) (spec_declaration Function)]
    /\ edit_kind e1 = replace
    /\ edit_kind e2 = insertAfter.
Proof.
  intros Htarget Hbody Hloc Hbuf Hpre Hbrace.
  rewrite (run_located Result h Function Body Htarget Hbody Hloc).
  rewrite submitted_after_run.
  rewrite (prototype_one_separator _ Function Body pre sep rest Hbuf Hpre Hbrace).
  do 2 eexists. split; [reflexivity |]. split; reflexivity.
Qed.

(** C7 on [int f(int x){ return x; }], where no blank precedes the opening
    brace: the third edit, after the replace and the insertAfter, inserts
    at the start of the definition the text [int f(int x;], which lacks
    the closing parenthesis of the prototype and declares nothing, where
    the forward declaration of the specification is [int f(int x);]. *)
Theorem declaration_loses_parenthesis :
  map edit_kind (submitted fresh_handler (run tight_match fresh_handler))
  = [replace; insertAfter; insertBefore]
  /\ nth_error (submitted fresh_handler (run tight_match fresh_handler)) 2
     = Some (InsertTextBefore 0 ("int f(int x;" ++ LF))
  /\ spec_declaration tight_decl = "int f(int x);" ++ LF
  /\ nth_error (submitted fresh_handler (run tight_match fresh_handler)) 2
     <> Some (InsertTextBefore 0 (spec_declaration tight_decl)).
Proof.
  split; [reflexivity |]. split; [reflexivity |]. split; [reflexivity |].
  vm_compute. discriminate.
Qed.

(** On [int f(int x) { return x; }] the forward declaration is the one of
    the specification. *)
Example declaration_f :
  exists e1 e2,
    submitted fresh_handler (run f_match fresh_handler)
    = [e1; e2; InsertTextBefore 0 ("int f(int x);" ++ LF)]
    /\ edit_kind e1 = replace
    /\ edit_kind e2 = insertAfter.
Proof.
  apply (declaration_one_separator f_match fresh_handler f_decl f_body
           "int f" " " "{ return x; }"); try reflexivity.
  constructor; unfold str_length; cbn; lia.
Qed.

(** ** The body is left alone *)



(** ** The null reference *)

(** C9: with a non-null matched reference the null branch is not taken
    and rewriting proceeds: the rename is submitted, and a located
    definition with a body gets all three edits.  With a null reference
    the call dies at once, nothing submitted; it never returns. *)
Theorem run_null_contract Result h :
  (forall Function,
      Nodes_target Result = Some Function ->
      run Result h <> Fatal (after_run Result h [])
      /\ (exists e1 rest,
            submitted h (run Result h) = e1 :: rest /\ edit_kind e1 = replace)
      /\ (forall Body,
            getBody Function = Some Body ->
            located (Result_SourceManager Result) Function Body ->
            exists edits, run Result h = Returned tt (after_run Result h edits)))
  /\ (Nodes_target Result = None ->
      run Result h = Fatal (after_run Result h [])
      /\ submitted h (run Result h) = []
      /\ forall h', run Result h <> Returned tt h').
Proof.
  split.
  - intros Function Htarget.
    assert (Hfirst : exists e1 rest,
               submitted h (run Result h) = e1 :: rest /\ edit_kind e1 = replace).
    { destruct (run_starts_with_rename Result h Function Htarget) as [rest Hrest].
      do 2 eexists. split; [exact Hrest | reflexivity]. }
    split; [| split].
    + intros Hfatal. destruct Hfirst as (e1 & rest & Hsub & _).
      rewrite Hfatal in Hsub. unfold submitted, journal, after_run in Hsub.
      cbn [Rewriter] in Hsub. rewrite app_nil_r, skipn_all in Hsub. discriminate.
    + exact Hfirst.
    + intros Body Hbody Hloc. eexists.
      apply (run_located Result h Function Body Htarget Hbody Hloc).
  - intros Hnull.
    assert (Hrun : run Result h = Fatal (after_run Result h [])).
    { unfold run, bind at 1 2. rewrite Hnull. cbn [set_state deref fatal].
      unfold after_run. now rewrite app_nil_r. }
    rewrite Hrun. split; [reflexivity |]. split.
    + unfold submitted, journal, after_run. cbn [Rewriter].
      now rewrite app_nil_r, skipn_all.
    + intros h'. discriminate.
Qed.

Lemma run_null_contract_witness :
  (run f_match fresh_handler <> Fatal (after_run f_match fresh_handler [])
   /\ (exists e1 rest,
         submitted fresh_handler (run f_match fresh_handler) = e1 :: rest
         /\ edit_kind e1 = replace)
   /\ exists edits,
        run f_match fresh_handler = Returned tt (after_run f_match fresh_handler edits))
  /\ run null_match fresh_handler = Fatal (after_run null_match fresh_handler [])
  /\ submitted fresh_handler (run null_match fresh_handler) = []
  /\ forall h', run null_match fresh_handler <> Returned tt h'.
Proof.
  destruct (run_null_contract f_match fresh_handler) as [Hsome _].
  destruct (run_null_contract null_match fresh_handler) as [_ Hnull].
  destruct (Hsome f_decl) as (Hnot & Hfirst & Hall); [reflexivity |].
  split.
  - split; [exact Hnot |]. split; [exact Hfirst |].
    apply (Hall f_body).
    + reflexivity.
    + constructor; unfold str_length; cbn; lia.
  - apply Hnull. reflexivity.
Defined.

(** ** A parameter without a name *)

(** C10: a parameter without a name contributes the empty string to the
    forwarding list and stops nothing: [getParameterNames] is a total
    function of the parameter list, and on
    [int h(int x, int, int z) { return x; }] the list reads [x, , z] and
    [run] returns with its three edits submitted. *)
Theorem unnamed_parameter_forwarded :
  (forall Name ReturnType Location LocStart LocEnd Body before type after,
      getParameterNames
        (mkFunctionDecl Name ReturnType (before ++ mkParm type "" :: after)%list
           Location LocStart LocEnd Body)
      = String.concat ", " (names_of before ++ "" :: names_of after))
  /\ (forall Result h Function Body,
        Nodes_target Result = Some Function ->
        getBody Function = Some Body ->
        located (Result_SourceManager Result) Function Body ->
        In "" (names_of (parameters Function)) ->
        exists e1 e2 e3, run Result h = Returned tt (after_run Result h [e1; e2; e3]))
  /\ getParameterNames h_decl = "x, , z"
  /\ run h_match fresh_handler
     = Returned tt
         (after_run h_match fresh_handler
            [ReplaceText (mkSourceRange 0 4) "int h__original__";
             InsertTextAfter 38
               (LF ++ LF ++ "int h(int x, int, int z) {" ++ LF
                  ++ "static const auto proxy = memoize(h__original__);" ++ LF
                  ++ "return proxy(x, , z);" ++ LF ++ "}");
             InsertTextBefore 0 ("int h(int x, int, int z);" ++ LF)]).
Proof.
  split; [| split; [| split; reflexivity]].
  - intros. rewrite getParameterNames_concat. cbn [parameters].
    unfold names_of. now rewrite map_app.
  - intros Result h Function Body Htarget Hbody Hloc _.
    rewrite (run_located Result h Function Body Htarget Hbody Hloc).
    do 3 eexists. reflexivity.
Qed.

Lemma unnamed_parameter_forwarded_witness :
  In "" (names_of (parameters h_decl))
  /\ exists e1 e2 e3,
       run h_match fresh_handler
       = Returned tt (after_run h_match fresh_handler [e1; e2; e3]).
Proof.
  destruct unnamed_parameter_forwarded as (_ & Hrun & _).
  split; [right; left; reflexivity |].
  apply (Hrun h_match fresh_handler h_decl h_body).
  - reflexivity.
  - reflexivity.
  - constructor; unfold str_length; cbn; lia.
  - right. left. reflexivity.
Defined.

(** ** What the preconditions are for *)

(** A declaration without a body, [int f(int x);]: the rename has been
    submitted when [getParameterList] dereferences the null body. *)
Example run_without_body :
  run (mkMatchResult
         (Some (mkFunctionDecl "f" "int" [mkParm "int" "x"] 4 0 11 None))
         (mkSourceManager "int f(int x);") (mkLangOptions true))
      fresh_handler
  = Fatal (mkHandler [ReplaceText (mkSourceRange 0 4) "int f__original__"]
             (Some (mkSourceManager "int f(int x);")) (Some (mkLangOptions true))).
Proof. reflexivity. Qed.

(** ** The rewritten text *)

Lemma drop_append a b : drop (String.length a) (a ++ b) = b.
Proof. induction a as [| c a IH]; cbn; [now destruct b | exact IH]. Qed.

Lemma insert_at_append a ins b :
  insert_at (String.length a) ins (a ++ b) = a ++ ins ++ b.
Proof.
  induction a as [| c a IH]; cbn [String.length append insert_at].
  - now destruct b.
  - now rewrite IH.
Qed.

Lemma erase_at_append a b c :
  erase_at (String.length a) (String.length b) (a ++ b ++ c) = a ++ c.
Proof.
  induction a as [| x a IH]; cbn [String.length append erase_at].
  - rewrite drop_append. now destruct (String.length b), (b ++ c).
  - now rewrite IH.
Qed.

Lemma str_length_append s t : str_length (s ++ t) = str_length s + str_length t.
Proof. unfold str_length. rewrite length_append. lia. Qed.

Lemma to_nat_str_length s : Z.to_nat (str_length s) = String.length s.
Proof. unfold str_length. lia. Qed.

(** One insertion: the text lands where the offset maps to, and later
    offsets see its length as a delta. *)
Lemma InsertText_Buffer rb OrigOffset Str InsertAfter a b :
  RewriteBuffer.Buffer rb = a ++ b ->
  str_length a = RewriteBuffer.getMappedOffset rb OrigOffset InsertAfter ->
  RewriteBuffer.Buffer (RewriteBuffer.InsertText rb OrigOffset Str InsertAfter)
  = a ++ Str ++ b.
Proof.
  intros Hbuf Hoff. unfold RewriteBuffer.InsertText.
  destruct (Z.eqb_spec (str_length Str) 0) as [Hempty | Hfull].
  - destruct Str; [exact Hbuf | unfold str_length in Hempty; cbn in Hempty; lia].
  - cbn [RewriteBuffer.Buffer].
    rewrite <- Hoff, to_nat_str_length, Hbuf. apply insert_at_append.
Qed.

Lemma InsertText_Deltas rb OrigOffset Str InsertAfter FileIndex :
  RewriteBuffer.getDeltaAt
    (RewriteBuffer.Deltas (RewriteBuffer.InsertText rb OrigOffset Str InsertAfter)) FileIndex
  = (if 2 * OrigOffset <? FileIndex then str_length Str else 0)
    + RewriteBuffer.getDeltaAt (RewriteBuffer.Deltas rb) FileIndex.
Proof.
  unfold RewriteBuffer.InsertText.
  destruct (Z.eqb_spec (str_length Str) 0) as [Hempty | Hfull].
  - rewrite Hempty. now destruct (_ <? _).
  - reflexivity.
Qed.

(** One replacement. *)
Lemma ReplaceText_Buffer rb OrigOffset OrigLength NewStr a b c :
  RewriteBuffer.Buffer rb = a ++ b ++ c ->
  str_length a = RewriteBuffer.getMappedOffset rb OrigOffset true ->
  str_length b = OrigLength ->
  RewriteBuffer.Buffer (RewriteBuffer.ReplaceText rb OrigOffset OrigLength NewStr)
  = a ++ NewStr ++ c.
Proof.
  intros Hbuf Hoff Hlen. unfold RewriteBuffer.ReplaceText.
  cbn [RewriteBuffer.Buffer].
  rewrite <- Hoff, <- Hlen, !to_nat_str_length, Hbuf.
  rewrite erase_at_append. apply insert_at_append.
Qed.

Lemma ReplaceText_Deltas rb OrigOffset OrigLength NewStr FileIndex :
  RewriteBuffer.getDeltaAt
    (RewriteBuffer.Deltas (RewriteBuffer.ReplaceText rb OrigOffset OrigLength NewStr)) FileIndex
  = (if 2 * OrigOffset + 1 <? FileIndex then str_length NewStr - OrigLength else 0)
    + RewriteBuffer.getDeltaAt (RewriteBuffer.Deltas rb) FileIndex.
Proof.
  unfold RewriteBuffer.ReplaceText. cbn [RewriteBuffer.Deltas].
  destruct (Z.eqb_spec OrigLength (str_length NewStr)) as [Hsame | Hdiff].
  - destruct (_ <? _); lia.
  - reflexivity.
Qed.

(** The rewriter's rendering of the three edits on a file not edited
    before.  The file is [before ++ head ++ tail ++ after], where [head]
    runs from the start of the declaration through the name and [tail]
    from the parameter list through the closing brace; the lexer finds a
    one-character token at the last character of the name.  The result
    keeps [tail], parameter list and body, as it was, puts the renamed
    head in front of it, the forward declaration before that and the
    wrapper behind. *)
Theorem rewritten_text MeasureTokenLength Result Function Body before head tail after :
  Nodes_target Result = Some Function ->
  getBody Function = Some Body ->
  located (Result_SourceManager Result) Function Body ->
  fileBuffer (Result_SourceManager Result) = before ++ head ++ tail ++ after ->
  str_length before = getLocStart Function ->
  str_length head = parameterListLocation Function - getLocStart Function ->
  str_length tail = getLocEnd Function + 1 - parameterListLocation Function ->
  MeasureTokenLength (parameterListLocation Function - 1) = 1 ->
  let Prototype := prototypeText (Result_SourceManager Result) Function Body in
  let NewName := getNameAsString Function ++ "__original__" in
  rewritten MeasureTokenLength (fileBuffer (Result_SourceManager Result))
    (submitted fresh_handler (run Result fresh_handler))
  = before
      ++ (Prototype ++ ";" ++ LF)
      ++ (getReturnType Function ++ " " ++ NewName)
      ++ tail
      ++ createMemoizedDefinition Function Prototype NewName
      ++ after.
Proof.
  intros Htarget Hbody Hloc Hbuf Hbefore Hhead Htail Htoken Prototype NewName.
  rewrite (run_located Result fresh_handler Function Body Htarget Hbody Hloc).
  rewrite submitted_after_run.
  destruct Hloc as [Hs Hn Hp Hb He].
  assert (HpLL : parameterListLocation Function
                 = getLocation Function + str_length (getNameAsString Function)).
  { unfold parameterListLocation, getLocWithOffset. rewrite to_int_small by lia. reflexivity. }
  fold Prototype NewName.
  set (NewDeclaration := getReturnType Function ++ " " ++ NewName).
  set (NewDefinition := createMemoizedDefinition Function Prototype NewName).
  set (Declaration := Prototype ++ ";" ++ LF).
  unfold rewritten. cbn [fold_left apply_edit getBegin].
  set (rb0 := RewriteBuffer.initial (fileBuffer (Result_SourceManager Result))).
  assert (Hsize : getRangeSize MeasureTokenLength rb0
                    (mkSourceRange (getLocStart Function)
                       (getLocation Function + str_length (getNameAsString Function) - 1))
                  = str_length head).
  { unfold getRangeSize, RewriteBuffer.getMappedOffset. cbn.
    rewrite <- HpLL, Htoken. lia. }
  rewrite Hsize.
  set (rb1 := RewriteBuffer.ReplaceText rb0 (getLocStart Function) (str_length head)
                NewDeclaration).
  assert (Hbuf1 : RewriteBuffer.Buffer rb1 = before ++ NewDeclaration ++ tail ++ after).
  { apply (ReplaceText_Buffer rb0 _ _ _ before head (tail ++ after)).
    - exact Hbuf.
    - unfold RewriteBuffer.getMappedOffset. cbn. lia.
    - reflexivity. }
  set (rb2 := RewriteBuffer.InsertText rb1 (getLocEnd Function + 1) NewDefinition true).
  assert (Hbuf2 : RewriteBuffer.Buffer rb2
                  = before ++ NewDeclaration ++ tail ++ NewDefinition ++ after).
  { replace (before ++ NewDeclaration ++ tail ++ NewDefinition ++ after)
      with ((before ++ NewDeclaration ++ tail) ++ NewDefinition ++ after)
      by (now rewrite !append_assoc).
    apply InsertText_Buffer.
    - rewrite Hbuf1. now rewrite !append_assoc.
    - unfold RewriteBuffer.getMappedOffset. subst rb1.
      rewrite ReplaceText_Deltas. cbn [RewriteBuffer.getDeltaAt rb0 RewriteBuffer.initial
                                         RewriteBuffer.Deltas].
      replace (2 * getLocStart Function + 1 <? 2 * (getLocEnd Function + 1) + 1)
        with true by (symmetry; apply Z.ltb_lt; lia).
      rewrite !str_length_append. lia. }
  apply InsertText_Buffer.
  - exact Hbuf2.
  - unfold RewriteBuffer.getMappedOffset. subst rb2 rb1.
    rewrite InsertText_Deltas, ReplaceText_Deltas.
    cbn [RewriteBuffer.getDeltaAt rb0 RewriteBuffer.initial RewriteBuffer.Deltas].
    replace (2 * (getLocEnd Function + 1) <? 2 * getLocStart Function + 0)
      with false by (symmetry; apply Z.ltb_ge; lia).
    replace (2 * getLocStart Function + 1 <? 2 * getLocStart Function + 0)
      with false by (symmetry; apply Z.ltb_ge; lia).
    lia.
Qed.

(** On [int f(int x) { return x; }], with a lexer that finds one-character
    tokens: the declaration, the renamed definition with its body as it
    was, and the wrapper. *)
Example rewritten_f :
  rewritten (fun _ => 1) (fileBuffer f_source)
    (submitted fresh_handler (run f_match fresh_handler))
  = "int f(int x);" ++ LF
      ++ "int f__original__(int x) { return x; }" ++ LF ++ LF
      ++ "int f(int x) {" ++ LF
      ++ "static const auto proxy = memoize(f__original__);" ++ LF
      ++ "return proxy(x);" ++ LF
      ++ "}".
Proof. reflexivity. Qed.

(** The hypotheses of [rewritten_text] hold of that example. *)
Example rewritten_text_f :
  rewritten (fun _ => 1) (fileBuffer f_source)
    (submitted fresh_handler (run f_match fresh_handler))
  = "" ++ ("int f(int x)" ++ ";" ++ LF)
       ++ ("int" ++ " " ++ "f__original__")
       ++ "(int x) { return x; }"
       ++ createMemoizedDefinition f_decl "int f(int x)" "f__original__"
       ++ "".
Proof.
  apply (rewritten_text (fun _ => 1) f_match f_decl f_body
           "" "int f" "(int x) { return x; }" "");
    try reflexivity.
  constructor; unfold str_length; cbn; lia.
Qed.

(** * Further properties of the handler *)

(** ** Every case of [run] *)

Lemma submitted_of_journal {A} (h : MemoizeHandler) (o : outcome A) edits :
  journal o = (Rewriter h ++ edits)%list -> submitted h o = edits.
Proof.
  intros Hj. unfold submitted. rewrite Hj.
  now rewrite skipn_app, skipn_all, Nat.sub_diag.
Qed.

(** [getFunctionPrototype] written out, for a handler whose source manager
    is set. *)
Lemma getFunctionPrototype_eval Function h SM :
  SourceManager h = Some SM ->
  getFunctionPrototype Function h
  = match getBody Function with
    | None => Fatal h
    | Some Body =>
        match string_of_range SM
                (getLocWithOffset (getLocation Function)
                   (Int.to_int (str_length (getNameAsString Function))))
                (getLocWithOffset (stmt_getLocStart Body) (-1)) with
        | None => Fatal h
        | Some ParameterList =>
            Returned (getReturnType Function ++ " " ++ getNameAsString Function
                        ++ ParameterList) h
        end
    end.
Proof.
  intros HSM.
  cbv beta iota zeta delta
    [getFunctionPrototype getParameterList bind get_SourceManager deref ret fatal
     getCharacterData].
  rewrite HSM.
  destruct (getBody Function) as [Body |]; [| reflexivity].
  destruct (string_of_range _ _ _) as [ParameterList |]; [| reflexivity].
  cbn [append]. now rewrite !append_assoc.
Qed.

(** [run] written out: it dies at once on a null match; it dies with the
    rename submitted when the body is missing or the parameter list
    cannot be read; otherwise it returns with the three edits. *)
Lemma run_cases Result h :
  match Nodes_target Result with
  | None => run Result h = Fatal (after_run Result h [])
  | Some Function =>
      match getBody Function with
      | None => run Result h = Fatal (after_run Result h [rename_edit Function])
      | Some Body =>
          match string_of_range (Result_SourceManager Result)
                  (getLocWithOffset (getLocation Function)
                     (Int.to_int (str_length (getNameAsString Function))))
                  (getLocWithOffset (stmt_getLocStart Body) (-1)) with
          | None => run Result h = Fatal (after_run Result h [rename_edit Function])
          | Some ParameterList =>
              run Result h
              = Returned tt
                  (after_run Result h
                     (rename_edit Function
                      :: insertion_edits Function
                           (getReturnType Function ++ " " ++ getNameAsString Function
                              ++ ParameterList)))
          end
      end
  end.
Proof.
  destruct (Nodes_target Result) as [Function |] eqn:Htarget.
  - assert (Hrun : run Result h
                   = bind (getFunctionPrototype Function)
                       (fun Prototype =>
                          submit (InsertTextAfter (getLocWithOffset (getLocEnd Function) 1)
                                    (createMemoizedDefinition Function Prototype
                                       (getNameAsString Function ++ "__original__"))) ;;
                          submit (InsertTextBefore (getLocStart Function)
                                    (Prototype ++ (";" ++ LF))))
                       (after_run Result h [rename_edit Function])).
    { unfold run, bind at 1 2 3. rewrite Htarget. cbn [set_state deref ret].
      now rewrite renameOriginalFunction_spec. }
    pose proof (getFunctionPrototype_eval Function
                  (after_run Result h [rename_edit Function])
                  (Result_SourceManager Result) eq_refl) as Hproto.
    unfold bind at 1 in Hrun. rewrite Hproto in Hrun. clear Hproto.
    destruct (getBody Function) as [Body |]; [| exact Hrun].
    destruct (string_of_range _ _ _) as [ParameterList |]; [| exact Hrun].
    rewrite Hrun.
    cbv beta iota zeta delta [bind submit insertion_edits after_run
                                Rewriter SourceManager LanguageOptions].
    rewrite <- !app_assoc. reflexivity.
  - unfold run, bind at 1 2. rewrite Htarget. cbn [set_state deref fatal].
    unfold after_run. now rewrite app_nil_r.
Qed.

Lemma journal_after_run {A} Result h edits (o : outcome A) :
  handler_of o = after_run Result h edits ->
  journal o = (Rewriter h ++ edits)%list.
Proof. destruct o; cbn [handler_of journal]; now intros ->. Qed.

(** What [run] leaves in the handler, whichever way it ends: the edits of
    this invocation after those that were there, and the source manager
    and language options of this match. *)
Lemma run_handler Result h :
  exists edits,
    handler_of (run Result h) = after_run Result h edits
    /\ submitted h (run Result h) = edits.
Proof.
  pose proof (run_cases Result h) as Hcases.
  destruct (Nodes_target Result) as [Function |].
  - destruct (getBody Function) as [Body |].
    + destruct (string_of_range _ _ _) as [ParameterList |];
        rewrite Hcases; eexists; (split; [reflexivity |]);
        now apply submitted_of_journal.
    + rewrite Hcases. eexists. split; [reflexivity |].
      now apply submitted_of_journal.
  - rewrite Hcases. eexists. split; [reflexivity |].
    now apply submitted_of_journal.
Qed.

(** X1: on a matched declaration without a body [run] dies in
    [getParameterList], after the rename has been submitted: exactly one
    edit, the replace, reaches the rewriter. *)
Theorem run_without_body_dies_after_rename Result h Function :
  Nodes_target Result = Some Function ->
  getBody Function = None ->
  run Result h = Fatal (after_run Result h [rename_edit Function])
  /\ submitted h (run Result h) = [rename_edit Function].
Proof.
  intros Htarget Hbody.
  pose proof (run_cases Result h) as Hcases.
  rewrite Htarget, Hbody in Hcases. rewrite Hcases.
  split; [reflexivity |]. now apply submitted_of_journal.
Qed.

Lemma run_without_body_dies_after_rename_witness :
  run decl_only_match fresh_handler
  = Fatal (after_run decl_only_match fresh_handler [rename_edit decl_only])
  /\ submitted fresh_handler (run decl_only_match fresh_handler)
     = [ReplaceText (mkSourceRange 0 4) "int f__original__"].
Proof.
  apply (run_without_body_dies_after_rename decl_only_match fresh_handler decl_only).
  - reflexivity.
  - reflexivity.
Defined.

(** X2: one invocation submits no edit, one edit or three edits, never
    two: three exactly when it returns, none exactly when the matched
    reference is null. *)
Theorem run_edit_count Result h :
  let n := List.length (submitted h (run Result h)) in
  (n = 0 \/ n = 1 \/ n = 3)%nat
  /\ (returns (run Result h) = true <-> n = 3%nat)
  /\ (Nodes_target Result = None <-> n = 0%nat).
Proof.
  pose proof (run_cases Result h) as Hcases.
  destruct (Nodes_target Result) as [Function |].
  - destruct (getBody Function) as [Body |].
    + destruct (string_of_range _ _ _) as [ParameterList |];
        rewrite Hcases;
        erewrite submitted_of_journal by reflexivity;
        cbn; (split; [auto |]); split; split; (discriminate || reflexivity).
    + rewrite Hcases. erewrite submitted_of_journal by reflexivity.
      cbn. split; [auto |]. split; split; discriminate.
  - rewrite Hcases. erewrite submitted_of_journal by reflexivity.
    cbn. split; [auto |]. split; split; (discriminate || reflexivity).
Qed.

Lemma run_state_independent Result h h' :
  submitted h (run Result h) = submitted h' (run Result h')
  /\ returns (run Result h) = returns (run Result h').
Proof.
  pose proof (run_cases Result h) as Hcases.
  pose proof (run_cases Result h') as Hcases'.
  destruct (Nodes_target Result) as [Function |].
  - destruct (getBody Function) as [Body |].
    + destruct (string_of_range _ _ _) as [ParameterList |];
        rewrite Hcases, Hcases';
        (split; [| reflexivity]);
        erewrite (submitted_of_journal h) by reflexivity;
        erewrite (submitted_of_journal h') by reflexivity;
        reflexivity.
    + rewrite Hcases, Hcases'. split; [| reflexivity].
      erewrite (submitted_of_journal h) by reflexivity.
      erewrite (submitted_of_journal h') by reflexivity.
      reflexivity.
  - rewrite Hcases, Hcases'. split; [| reflexivity].
    erewrite (submitted_of_journal h) by reflexivity.
    erewrite (submitted_of_journal h') by reflexivity.
    reflexivity.
Qed.

(** X3: what an invocation submits, and whether it returns, depends on
    the match alone: [run] sets the source manager before anything reads
    it, so nothing left in the handler by an earlier invocation, nor the
    edits already in the rewriter, has an influence. *)
Theorem run_ignores_prior_state Result h h' :
  submitted h (run Result h) = submitted h' (run Result h')
  /\ returns (run Result h) = returns (run Result h').
Proof. apply run_state_independent. Qed.

Lemma run_journal Result h :
  journal (run Result h) = (Rewriter h ++ submitted h (run Result h))%list.
Proof.
  destruct (run_handler Result h) as (edits & Hh & Hsub).
  rewrite Hsub. now apply (journal_after_run Result).
Qed.

(** X4: [run] only appends to the rewriter: the edits that were there stay,
    in their order, before the edits of this invocation; and however the
    invocation ends, the handler then points to the source manager and
    the language options of this match. *)
Theorem run_appends Result h :
  journal (run Result h) = (Rewriter h ++ submitted h (run Result h))%list
  /\ SourceManager (handler_of (run Result h)) = Some (Result_SourceManager Result)
  /\ LanguageOptions (handler_of (run Result h)) = Some (Context_getLangOpts Result).
Proof.
  destruct (run_handler Result h) as (edits & Hh & Hsub).
  rewrite Hsub, Hh. split; [| split; reflexivity].
  now apply (journal_after_run Result).
Qed.

(** X5: two invocations in a row on a handler fresh from its constructor.
    The rewriter holds what it was given, then the edits of the first
    match, then those of the second, each as the match alone determines
    them; when the first invocation dies the second never runs. *)
Theorem run_sequence Result1 Result2 TheRewriter :
  let h := MemoizeHandler_new TheRewriter in
  journal ((run Result1 ;; run Result2) h)
  = (TheRewriter
       ++ submitted h (run Result1 h)
       ++ (if returns (run Result1 h) then submitted h (run Result2 h) else []))%list
  /\ returns ((run Result1 ;; run Result2) h)
     = returns (run Result1 h) && returns (run Result2 h).
Proof.
  intros h.
  pose proof (run_journal Result1 h) as Hj1.
  unfold bind. destruct (run Result1 h) as [[] h1 | h1] eqn:Hrun1.
  - cbn [returns andb journal] in *.
    rewrite (run_journal Result2 h1), Hj1.
    destruct (run_state_independent Result2 h1 h) as [-> ->].
    change (Rewriter h) with TheRewriter.
    split; [| reflexivity]. now rewrite <- app_assoc.
  - cbn [returns andb journal] in *.
    change (Rewriter h) with TheRewriter in Hj1.
    split; [| reflexivity]. now rewrite Hj1, app_nil_r.
Qed.

(** ** The mangled name *)

Lemma append_inj_l s1 s2 t : s1 ++ t = s2 ++ t -> s1 = s2.
Proof.
  revert s2. induction s1 as [| c s1 IH]; intros s2 Heq.
  - destruct s2 as [| d s2]; [reflexivity |].
    apply (f_equal String.length) in Heq.
    cbn [append String.length] in Heq. rewrite length_append in Heq. lia.
  - destruct s2 as [| d s2].
    + apply (f_equal String.length) in Heq.
      cbn [append String.length] in Heq. rewrite length_append in Heq. lia.
    + cbn [append] in Heq. injection Heq as -> Heq.
      f_equal. now apply IH.
Qed.

(** X6: the name [renameOriginalFunction] returns is twelve characters
    longer than the original name, so never the original name itself;
    and two functions get the same mangled name only when they have the
    same name. *)
Theorem mangled_name_distinct Function1 h1 :
  (exists NewName,
      returned_value (renameOriginalFunction Function1 h1) = Some NewName
      /\ str_length NewName = str_length (getNameAsString Function1) + 12
      /\ NewName <> getNameAsString Function1)
  /\ (forall Function2 h2,
        returned_value (renameOriginalFunction Function1 h1)
        = returned_value (renameOriginalFunction Function2 h2) ->
        getNameAsString Function1 = getNameAsString Function2).
Proof.
  split.
  - eexists. split; [reflexivity |].
    assert (Hlen : str_length (getNameAsString Function1 ++ "__original__")
                   = str_length (getNameAsString Function1) + 12).
    { rewrite str_length_append. reflexivity. }
    split; [exact Hlen |].
    intros Heq. rewrite Heq in Hlen. lia.
  - intros Function2 h2 Heq.
    rewrite !renameOriginalFunction_spec in Heq. cbn [returned_value] in Heq.
    injection Heq as Heq. now apply append_inj_l in Heq.
Qed.

Lemma mangled_name_distinct_witness :
  (exists NewName,
      returned_value (renameOriginalFunction f_decl fresh_handler) = Some NewName
      /\ str_length NewName = 1 + 12
      /\ NewName <> "f")
  /\ getNameAsString f_decl = getNameAsString const_decl.
Proof.
  destruct (mangled_name_distinct f_decl fresh_handler) as [Hnew Hinj].
  split; [exact Hnew |].
  apply (Hinj const_decl (after_run const_match fresh_handler [])).
  reflexivity.
Defined.

(** ** The text the parameter list is copied from *)

(** X7: [getParameterList] copies the buffer as it is, from right after
    the name up to, but not including, the last character before the
    opening brace, and touches nothing.  Whatever stands there comes
    along, a qualifier after the closing parenthesis too, and whatever
    the one character before the brace is, it is left out. *)
Theorem getParameterList_copies_verbatim SM Function Body h pre mid sep rest :
  SourceManager h = Some SM ->
  getBody Function = Some Body ->
  str_length (getNameAsString Function) < 2 ^ 31 ->
  fileBuffer SM = pre ++ mid ++ String sep rest ->
  str_length pre = getLocation Function + str_length (getNameAsString Function) ->
  stmt_getLocStart Body
  = getLocation Function + str_length (getNameAsString Function) + str_length mid + 1 ->
  getParameterList Function (getNameAsString Function) h = Returned mid h
  /\ getFunctionPrototype Function h
     = Returned (getReturnType Function ++ " " ++ getNameAsString Function ++ mid) h.
Proof.
  intros HSM Hbody Hlen Hbuf Hpre Hbrace.
  pose proof (str_length_nonneg (getNameAsString Function)) as Hnn.
  assert (Hrange :
            string_of_range SM
              (getLocWithOffset (getLocation Function)
                 (Int.to_int (str_length (getNameAsString Function))))
              (getLocWithOffset (stmt_getLocStart Body) (-1))
            = Some mid).
  { unfold string_of_range, getLocWithOffset.
    rewrite to_int_small by lia. rewrite <- Hpre, Hbrace, <- Hpre.
    pose proof (str_length_nonneg pre). pose proof (str_length_nonneg mid).
    pose proof (str_length_nonneg rest).
    assert (Hall : str_length (fileBuffer SM)
                   = str_length pre + (str_length mid + (1 + str_length rest))).
    { rewrite Hbuf, !str_length_append. unfold str_length at 3.
      cbn [String.length]. unfold str_length. lia. }
    replace (0 <=? str_length pre) with true by (symmetry; apply Z.leb_le; lia).
    replace (str_length pre <=? _) with true by (symmetry; apply Z.leb_le; lia).
    replace (_ <=? str_length (fileBuffer SM)) with true
      by (symmetry; apply Z.leb_le; lia).
    cbn [andb]. f_equal.
    replace (str_length pre + str_length mid + 1 + -1 - str_length pre)
      with (str_length mid) by lia.
    rewrite !to_nat_str_length, Hbuf. apply substring_middle. }
  split.
  - cbv beta iota zeta delta
      [getParameterList bind get_SourceManager deref ret fatal getCharacterData].
    rewrite HSM, Hbody. now rewrite Hrange.
  - rewrite (getFunctionPrototype_eval Function h SM HSM), Hbody.
    now rewrite Hrange.
Qed.

Lemma getParameterList_copies_verbatim_witness :
  getParameterList const_decl "f" (after_run const_match fresh_handler [])
  = Returned "(int x) const" (after_run const_match fresh_handler [])
  /\ getFunctionPrototype const_decl (after_run const_match fresh_handler [])
     = Returned ("int" ++ " " ++ "f" ++ "(int x) const")
         (after_run const_match fresh_handler []).
Proof.
  apply (getParameterList_copies_verbatim const_source const_decl const_body
           (after_run const_match fresh_handler [])
           "int f" "(int x) const" " " "{ return x; }").
  - reflexivity.
  - reflexivity.
  - vm_compute. reflexivity.
  - reflexivity.
  - reflexivity.
  - reflexivity.
Defined.

(** ** The edits of a returning invocation *)



(** ** The forwarding list of a longer parameter list *)

Lemma concat_app sep l1 l2 :
  l1 <> [] -> l2 <> [] ->
  String.concat sep (l1 ++ l2) = String.concat sep l1 ++ sep ++ String.concat sep l2.
Proof.
  intros H1 H2. induction l1 as [| a l1 IH]; [contradiction |].
  destruct l1 as [| b l1'].
  - destruct l2 as [| c l2']; [contradiction |]. reflexivity.
  - change ((a :: b :: l1') ++ l2)%list with (a :: b :: (l1' ++ l2))%list.
    rewrite !concat_cons.
    change (b :: (l1' ++ l2))%list with ((b :: l1') ++ l2)%list.
    rewrite IH by discriminate.
    now rewrite !append_assoc.
Qed.

(** X9: the forwarding list of a parameter list made of two non-empty
    parts is the list of the first part, the separator, and the list of
    the second part: the separator test of the loop, which compares the
    counter with the total number of parameters, puts one separator at
    the seam and none at the end. *)
Theorem getParameterNames_app Function Function1 Function2 :
  parameters Function = (parameters Function1 ++ parameters Function2)%list ->
  parameters Function1 <> [] ->
  parameters Function2 <> [] ->
  getParameterNames Function
  = getParameterNames Function1 ++ ", " ++ getParameterNames Function2.
Proof.
  intros Hparams H1 H2.
  rewrite !getParameterNames_concat, Hparams.
  unfold names_of. rewrite map_app.
  apply concat_app.
  - destruct (parameters Function1); [contradiction | discriminate].
  - destruct (parameters Function2); [contradiction | discriminate].
Qed.

Lemma getParameterNames_app_witness :
  getParameterNames h_decl = getParameterNames f_decl ++ ", " ++ ", z".
Proof.
  apply (getParameterNames_app h_decl f_decl
           (mkFunctionDecl "t" "int" [mkParm "int" ""; mkParm "int" "z"] 4 0 9 None)).
  - reflexivity.
  - discriminate.
  - discriminate.
Defined.

(** ** An empty forwarding list *)

Lemma append_empty s t : s ++ t = "" -> s = "" /\ t = "".
Proof. destruct s; cbn; [auto | discriminate]. Qed.

(** X10: the forwarding list is empty in two cases only: the function
    has no parameter, or it has a single parameter and that one has no
    name.  In the second case the wrapper calls [proxy()] although the
    function takes an argument. *)
Theorem getParameterNames_empty Function :
  getParameterNames Function = ""
  <-> parameters Function = []
      \/ exists p, parameters Function = [p] /\ parmName p = "".
Proof.
  rewrite getParameterNames_concat. split.
  - destruct (parameters Function) as [| p [| q rest]]; intros Hempty.
    + now left.
    + right. exists p. split; [reflexivity | exact Hempty].
    + cbn [names_of map] in Hempty. rewrite concat_cons in Hempty.
      apply append_empty in Hempty. destruct Hempty as [_ Hsep].
      discriminate Hsep.
  - intros [-> | (p & -> & Hname)]; [reflexivity | exact Hname].
Qed.

Lemma getParameterNames_empty_witness :
  getParameterNames
    (mkFunctionDecl "f" "int" [mkParm "int" ""] 4 0 20 (Some (mkStmt 11))) = ""
  /\ createMemoizedDefinition
       (mkFunctionDecl "f" "int" [mkParm "int" ""] 4 0 20 (Some (mkStmt 11)))
       "int f(int)" "f__original__"
     = LF ++ LF ++ "int f(int) {" ++ LF
         ++ "static const auto proxy = memoize(f__original__);" ++ LF
         ++ "return proxy();" ++ LF ++ "}".
Proof.
  split; [| reflexivity].
  apply (proj2 (getParameterNames_empty
                  (mkFunctionDecl "f" "int" [mkParm "int" ""] 4 0 20 (Some (mkStmt 11))))).
  right. exists (mkParm "int" ""). split; reflexivity.
Defined.
